(** * EGAClient: a thin client for the EGA public metadata API

    Shallow embedding of the class [EGAClient] of
    [ega-public-metadata.ipynb] (methods [__init__], [_get], [get_entity],
    [get_related_entities]) and of the three calls it makes into the
    [requests] library ([requests.get], [Response.raise_for_status],
    [Response.json]).

    The methods are written in a state-and-exception monad.  The state holds
    the client object and the log of the calls made to [requests.get]; the
    network and the JSON decoder are parameters of the development. *)

From Stdlib Require Import ZArith String List Bool Lia.
From Stdlib Require Import DecimalString.
Import ListNotations.

Local Open Scope string_scope.
Local Open Scope Z_scope.

(** ** Python values used by the client *)

(** [str(n)] for an [int]. *)
Definition str_of_int (n : Z) : string :=
  NilZero.string_of_int (Z.to_int n).

(** Truth value of an optional [str], as tested by [if accession_id:]:
    [None] and the empty string are falsy, every other string is truthy. *)
Definition truthy (s : option string) : bool :=
  match s with
  | None => false
  | Some v => negb (String.eqb v "")
  end.

(** The text an f-string substitutes for a value that passed the
    truthiness test. *)
Definition fmt (s : option string) : string :=
  match s with
  | None => "None"
  | Some v => v
  end.

(** A [dict] with [str] keys and [int] values.  Python dicts keep insertion
    order and [requests] encodes the items in that order, so the dict is an
    association list without duplicate keys. *)
Module Dict.

Definition t : Type := list (string * Z).

Definition empty : t := [].

(** [d[k] = v]: overwrite in place when the key exists, else append. *)
Fixpoint set (d : t) (k : string) (v : Z) : t :=
  match d with
  | [] => [(k, v)]
  | (k', v') :: d' =>
      if String.eqb k k' then (k, v) :: d' else (k', v') :: set d' k v
  end.

(** [d.get(k)] *)
Fixpoint get (d : t) (k : string) : option Z :=
  match d with
  | [] => None
  | (k', v') :: d' => if String.eqb k k' then Some v' else get d' k
  end.

Definition keys (d : t) : list string := map fst d.

End Dict.

(** ** The [requests] library, as far as the client uses it *)

(** One call of [requests.get(url, params=params)]. *)
Record Request : Type := mkRequest {
  url : string;
  params : option Dict.t
}.

Record Response : Type := mkResponse {
  status_code : Z;
  text : string
}.

(** What [requests.get] comes back with: an exception of the library (no
    connection, timeout, unusable URL, ...) or a response object. *)
Inductive Outcome : Type :=
| ConnectionFailed
| Responded (r : Response).

(** The query string [requests] derives from [params]: the items in order
    as [key=value], joined by [&]; nothing for [None] or an empty dict.
    Keys and values here are made of unreserved characters only, which
    [urlencode] leaves as they are. *)
Definition encode_item (kv : string * Z) : string :=
  fst kv ++ "=" ++ str_of_int (snd kv).

Definition encode_params (p : option Dict.t) : string :=
  match p with
  | None => ""
  | Some d => String.concat "&" (map encode_item d)
  end.

Definition query_string (r : Request) : string := encode_params (params r).

(** Exceptions that reach the caller. *)
Inductive exn : Type :=
| ConnectionError                (* raised by [requests.get] *)
| HTTPError (status : Z)         (* raised by [raise_for_status] *)
| JSONDecodeError.               (* raised by [Response.json] *)

(** The two error kinds of the specification. *)
Inductive ErrorKind : Type := RequestError | DecodeError.

Definition kind_of (e : exn) : ErrorKind :=
  match e with
  | ConnectionError => RequestError
  | HTTPError _ => RequestError
  | JSONDecodeError => DecodeError
  end.

(** [Response.raise_for_status] raises for client errors (4xx) and server
    errors (5xx), and for nothing else. *)
Definition is_error_status (c : Z) : bool :=
  (400 <=? c) && (c <? 600).

Definition is_success_status (c : Z) : bool :=
  (200 <=? c) && (c <? 300).

(** ** The client object and the state of a run *)

Record EGAClient : Type := mkEGAClient {
  base_url : string
}.

Record World : Type := mkWorld {
  self : EGAClient;
  sent : list Request
}.

Inductive result (A : Type) : Type :=
| Return (a : A)
| Raise (e : exn).
Arguments Return {A} a.
Arguments Raise {A} e.

Definition M (A : Type) : Type := World -> result A * World.

Definition ret {A} (a : A) : M A := fun w => (Return a, w).

Definition raise {A} (e : exn) : M A := fun w => (Raise e, w).

Definition bind {A B} (m : M A) (k : A -> M B) : M B :=
  fun w =>
    match m w with
    | (Return a, w') => k a w'
    | (Raise e, w') => (Raise e, w')
    end.

Declare Scope py_scope.
Delimit Scope py_scope with py.
Notation "x <- m ;; k" := (bind m (fun x => k))
  (at level 100, m at next level, right associativity) : py_scope.
Notation "m ;; k" := (bind m (fun _ => k))
  (at level 100, right associativity) : py_scope.
Local Open Scope py_scope.

(** [self.base_url] *)
Definition get_base_url : M string := fun w => (Return (base_url (self w)), w).

(** [EGAClient(base_url=...)] *)
Definition __init__ (base_url : option string) : EGAClient :=
  mkEGAClient
    match base_url with
    | None => "https://metadata.ega-archive.org"
    | Some b => b
    end.

Section Client.

(** The decoded JSON values and the decoder behind [Response.json]. *)
Variable JSON : Type.
Variable json_loads : string -> option JSON.

(** The network: given the calls made so far and the present one, what
    [requests.get] comes back with. *)
Variable network : list Request -> Request -> Outcome.

Definition requests_get (u : string) (p : option Dict.t) : M Response :=
  fun w =>
    let r := mkRequest u p in
    let w' := mkWorld (self w) (sent w ++ [r]) in
    match network (sent w) r with
    | ConnectionFailed => (Raise ConnectionError, w')
    | Responded resp => (Return resp, w')
    end.

Definition raise_for_status (resp : Response) : M unit :=
  if is_error_status (status_code resp)
  then raise (HTTPError (status_code resp))
  else ret tt.

Definition json (resp : Response) : M JSON :=
  match json_loads (text resp) with
  | Some v => ret v
  | None => raise JSONDecodeError
  end.

Definition _get (endpoint : string) (params : option Dict.t) : M JSON :=
  b <- get_base_url ;;
  let url := b ++ "/" ++ endpoint in
  response <- requests_get url params ;;
  raise_for_status response ;;
  json response.

Definition get_entity (entity_type : string) (accession_id : option string)
    (limit offset : option Z) : M JSON :=
  let params := Dict.empty in
  let endpoint := entity_type in
  let endpoint :=
    if truthy accession_id
    then endpoint ++ ("/" ++ fmt accession_id)
    else endpoint in
  let params :=
    match limit with
    | Some v => Dict.set params "limit" v
    | None => params
    end in
  let params :=
    match offset with
    | Some v => Dict.set params "offset" v
    | None => params
    end in
  _get endpoint (Some params).

Definition get_related_entities (entity_type related_entity_type : string)
    (accession_id : option string) (limit offset : option Z) : M JSON :=
  let params := Dict.empty in
  let endpoint := entity_type in
  let endpoint :=
    if truthy accession_id
    then endpoint ++ ("/" ++ fmt accession_id ++ "/" ++ related_entity_type)
    else endpoint in
  let params :=
    match limit with
    | Some v => Dict.set params "limit" v
    | None => params
    end in
  let params :=
    match offset with
    | Some v => Dict.set params "offset" v
    | None => params
    end in
  _get endpoint (Some params).

End Client.



(** The request [_get] hands to [requests.get] when run in [w]. *)
Definition request_for (w : World) (endpoint : string)
    (p : option Dict.t) : Request :=
  mkRequest (base_url (self w) ++ "/" ++ endpoint) p.

(** The two public methods, as one type of calls. *)
Inductive Call : Type :=
| GetEntity (entity_type : string) (accession_id : option string)
    (limit offset : option Z)
| GetRelatedEntities (entity_type related_entity_type : string)
    (accession_id : option string) (limit offset : option Z).

Definition limit_of (c : Call) : option Z :=
  match c with
  | GetEntity _ _ l _ => l
  | GetRelatedEntities _ _ _ l _ => l
  end.

Definition offset_of (c : Call) : option Z :=
  match c with
  | GetEntity _ _ _ o => o
  | GetRelatedEntities _ _ _ _ o => o
  end.


Definition run_call (JSON : Type) (json_loads : string -> option JSON)
    (network : list Request -> Request -> Outcome) (c : Call) : M JSON :=
  match c with
  | GetEntity e a l o => get_entity JSON json_loads network e a l o
  | GetRelatedEntities e r a l o =>
      get_related_entities JSON json_loads network e r a l o
  end.

(** ** [requests.get] on the wire

    One call of [requests.get] is not one HTTP request.  The library first
    prepares the URL and raises, with nothing sent, when it cannot use it
    (no scheme, no host).  Otherwise it sends the GET and, as long as the
    answer is a redirect (status 301, 302, 303, 307 or 308 with a
    [Location] header), sends a further GET to that location; after 30
    redirects it gives up with an exception.  The location is taken as the
    absolute URL the library resolves it to, and carries no params. *)
Inductive WireAnswer : Type :=
| NoAnswer
| Answer (status : Z) (location : option string) (body : string).

Definition is_redirect_status (c : Z) : bool :=
  (c =? 301) || (c =? 302) || (c =? 303) || (c =? 307) || (c =? 308).

Definition redirect_target (a : WireAnswer) : option string :=
  match a with
  | Answer st (Some target) _ =>
      if is_redirect_status st then Some target else None
  | _ => None
  end.

Definition max_redirects : nat := 30.

Section Wire.

(** Whether the library can prepare the URL at all. *)
Variable usable : string -> bool.

(** What the server answers to one GET. *)
Variable server : Request -> WireAnswer.

(** The GETs sent from [r] on, and what [requests.get] comes back with. *)
Fixpoint follow (budget : nat) (r : Request) : list Request * Outcome :=
  match server r with
  | NoAnswer => ([r], ConnectionFailed)
  | Answer st loc body =>
      match redirect_target (Answer st loc body) with
      | Some target =>
          match budget with
          | O => ([r], ConnectionFailed)
          | S b =>
              let (rs, o) := follow b (mkRequest target None) in
              (r :: rs, o)
          end
      | None => ([r], Responded (mkResponse st body))
      end
  end.

Definition exchange (r : Request) : list Request * Outcome :=
  if usable (url r) then follow max_redirects r else ([], ConnectionFailed).

(** The network the client sees when [requests.get] works this way. *)
Definition via_wire : list Request -> Request -> Outcome :=
  fun _ r => snd (exchange r).

(** The HTTP requests that a log of [requests.get] calls put on the wire. *)
Definition on_wire (calls : list Request) : list Request :=
  flat_map (fun r => fst (exchange r)) calls.

End Wire.

(** A small concrete environment for closed examples: a decoder that knows
    the empty array and the empty object, servers that give one fixed
    answer, and a freshly constructed client that has sent nothing. *)
Module Sample.

Inductive value : Type := EmptyArray | EmptyObject.

Definition loads (s : string) : option value :=
  if String.eqb s "[]" then Some EmptyArray
  else if String.eqb s "{}" then Some EmptyObject
  else None.

Definition answering (c : Z) (body : string)
    : list Request -> Request -> Outcome :=
  fun _ _ => Responded (mkResponse c body).

Definition ok_server : list Request -> Request -> Outcome :=
  answering 200 "[]".

Definition offline : list Request -> Request -> Outcome :=
  fun _ _ => ConnectionFailed.

Definition fresh : World := mkWorld (__init__ None) [].

(** URLs with an http or https scheme. *)
Definition http_url (u : string) : bool :=
  String.prefix "http://" u || String.prefix "https://" u.

(** A server that moves the collection of studies to a path with a
    trailing slash and answers every other GET with an empty array. *)
Definition redirecting (r : Request) : WireAnswer :=
  if String.eqb (url r) "https://metadata.ega-archive.org/studies"
  then Answer 301 (Some "https://metadata.ega-archive.org/studies/") ""
  else Answer 200 None "[]".

End Sample.

(** ** Facts about dicts *)

Lemma dict_get_set_same (d : Dict.t) (k : string) (v : Z) :
  Dict.get (Dict.set d k v) k = Some v.
Proof.
  induction d as [|[k' v'] d IH]; simpl.
  - now rewrite String.eqb_refl.
  - destruct (String.eqb k k') eqn:E; simpl.
    + now rewrite String.eqb_refl.
    + now rewrite E.
Qed.

Lemma dict_get_set_other (d : Dict.t) (k k' : string) (v : Z) :
  k <> k' -> Dict.get (Dict.set d k v) k' = Dict.get d k'.
Proof.
  intros Hne.
  induction d as [|[k0 v0] d IH]; simpl.
  - destruct (String.eqb k' k) eqn:E; auto.
    apply String.eqb_eq in E. congruence.
  - destruct (String.eqb k k0) eqn:E; simpl.
    + apply String.eqb_eq in E. subst k0.
      destruct (String.eqb k' k) eqn:E'; auto.
      apply String.eqb_eq in E'. congruence.
    + now rewrite IH.
Qed.

Lemma dict_get_In (d : Dict.t) (k : string) (v : Z) :
  Dict.get d k = Some v -> In (k, v) d.
Proof.
  induction d as [|[k' v'] d IH]; simpl; [discriminate|].
  destruct (String.eqb k k') eqn:E; intros H.
  - apply String.eqb_eq in E. left. congruence.
  - right. auto.
Qed.

Lemma dict_get_None_keys (d : Dict.t) (k : string) :
  Dict.get d k = None -> ~ In k (Dict.keys d).
Proof.
  induction d as [|[k' v'] d IH]; simpl; [tauto|].
  destruct (String.eqb k k') eqn:E; [discriminate|].
  intros H [Heq|Hin]; [|now apply IH].
  subst k'. now rewrite String.eqb_refl in E.
Qed.

Lemma dict_get_keys (d : Dict.t) (k : string) (v : Z) :
  Dict.get d k = Some v -> In k (Dict.keys d).
Proof.
  intros H. apply dict_get_In in H.
  apply (in_map fst) in H. exact H.
Qed.

(** The dict the two methods build from [limit] and [offset] answers each
    of the two keys with the argument it was built from. *)
Lemma pagination_dict (l o : option Z) :
  let d0 := match l with Some v => Dict.set Dict.empty "limit" v
                       | None => Dict.empty end in
  let d := match o with Some v => Dict.set d0 "offset" v | None => d0 end in
  Dict.get d "limit" = l /\ Dict.get d "offset" = o.
Proof.
  destruct l as [l|], o as [o|]; cbv zeta; split;
    try rewrite dict_get_set_other by discriminate;
    try apply dict_get_set_same; reflexivity.
Qed.

Lemma truthy_nonempty (a : string) : a <> "" -> truthy (Some a) = true.
Proof.
  intros H. simpl. destruct (String.eqb a "") eqn:E; auto.
  apply String.eqb_eq in E. contradiction.
Qed.

Lemma falsy_cases (a : option string) :
  truthy a = false <-> a = None \/ a = Some "".
Proof.
  destruct a as [s|]; simpl.
  - destruct (String.eqb s "") eqn:E; simpl.
    + apply String.eqb_eq in E. subst. intuition.
    + split; [discriminate|]. intros [H|H]; [discriminate|].
      inversion H; subst. discriminate.
  - intuition.
Qed.

Lemma is_error_status_spec (c : Z) :
  is_error_status c = true <-> 400 <= c < 600.
Proof.
  unfold is_error_status. rewrite andb_true_iff, Z.leb_le, Z.ltb_lt. tauto.
Qed.

(** ** Facts about the client *)

Section ClientFacts.

Variable JSON : Type.
Variable json_loads : string -> option JSON.
Variable network : list Request -> Request -> Outcome.

Local Abbreviation get := (_get JSON json_loads network).
Local Abbreviation entity := (get_entity JSON json_loads network).
Local Abbreviation related := (get_related_entities JSON json_loads network).
Local Abbreviation run := (run_call JSON json_loads network).

Ltac run_get :=
  unfold _get, bind, get_base_url, requests_get, raise_for_status, json,
    ret, raise, request_for; simpl.

(** [_get] leaves the client alone and logs exactly its own request,
    whatever comes back. *)
Lemma _get_world (endpoint : string) (p : option Dict.t) (w : World) :
  snd (get endpoint p w)
  = mkWorld (self w) (sent w ++ [request_for w endpoint p]).
Proof.
  run_get.
  destruct (network _ _) as [|resp]; simpl; auto.
  destruct (is_error_status _); simpl; auto.
  destruct (json_loads _); auto.
Qed.

Lemma _get_offline (endpoint : string) (p : option Dict.t) (w : World) :
  network (sent w) (request_for w endpoint p) = ConnectionFailed ->
  fst (get endpoint p w) = Raise ConnectionError.
Proof.
  run_get. intros ->. reflexivity.
Qed.

Lemma _get_error_status (endpoint : string) (p : option Dict.t) (w : World)
    (resp : Response) :
  network (sent w) (request_for w endpoint p) = Responded resp ->
  400 <= status_code resp < 600 ->
  fst (get endpoint p w) = Raise (HTTPError (status_code resp)).
Proof.
  run_get. intros -> H. apply is_error_status_spec in H.
  simpl. now rewrite H.
Qed.

Lemma _get_decoded (endpoint : string) (p : option Dict.t) (w : World)
    (resp : Response) :
  network (sent w) (request_for w endpoint p) = Responded resp ->
  ~ 400 <= status_code resp < 600 ->
  fst (get endpoint p w)
  = match json_loads (text resp) with
    | Some v => Return v
    | None => Raise JSONDecodeError
    end.
Proof.
  run_get. intros -> H. simpl.
  destruct (is_error_status (status_code resp)) eqn:E.
  - apply is_error_status_spec in E. contradiction.
  - simpl. destruct (json_loads _); reflexivity.
Qed.

(** Both methods end in one call of [_get] with a dict for [params]. *)
Lemma run_call_get (c : Call) :
  exists endpoint d,
    run c = get endpoint (Some d)
    /\ Dict.get d "limit" = limit_of c
    /\ Dict.get d "offset" = offset_of c.
Proof.
  destruct c as [e a l o | e r a l o]; simpl;
    unfold get_entity, get_related_entities;
    eexists; eexists; (split; [reflexivity|]); apply pagination_dict.
Qed.

Ltac one_request :=
  unfold get_entity, get_related_entities; rewrite _get_world; simpl.

(** ** Endpoint paths *)

(** C1 (as amended): for every entity type, related entity type and
    NON-EMPTY accession id, [get_related_entities] issues one GET whose
    path is [entity_type/accession_id/related_entity_type], the accession
    id before the related entity type. *)
Theorem related_entities_path (et rel acc : string) (l o : option Z)
    (w : World) :
  acc <> "" ->
  map url (sent (snd (related et rel (Some acc) l o w)))
  = (map url (sent w)
     ++ [(base_url (self w) ++ "/" ++ et ++ "/" ++ acc ++ "/" ++ rel)%string]
    )%list.
Proof.
  intros H. unfold get_related_entities.
  rewrite (truthy_nonempty acc H), _get_world. simpl.
  now rewrite map_app.
Qed.

(** C3: for every entity type and every non-empty accession id,
    [get_entity] issues one GET to the path [entity_type/accession_id]. *)
Theorem entity_path_with_accession (et acc : string) (l o : option Z)
    (w : World) :
  acc <> "" ->
  map url (sent (snd (entity et (Some acc) l o w)))
  = (map url (sent w)
     ++ [(base_url (self w) ++ "/" ++ et ++ "/" ++ acc)%string])%list.
Proof.
  intros H. unfold get_entity.
  rewrite (truthy_nonempty acc H), _get_world. simpl.
  now rewrite map_app.
Qed.

(** C4: for every entity type, when the accession id is [None] or the
    empty string, [get_entity] issues one GET to the bare path
    [entity_type], with no accession segment after it. *)
Theorem entity_path_without_accession (et : string) (acc : option string)
    (l o : option Z) (w : World) :
  acc = None \/ acc = Some "" ->
  map url (sent (snd (entity et acc l o w)))
  = (map url (sent w) ++ [(base_url (self w) ++ "/" ++ et)%string])%list.
Proof.
  intros H. apply falsy_cases in H. unfold get_entity.
  rewrite H, _get_world. simpl.
  now rewrite map_app.
Qed.

(** C10: when the accession id is [None] or the empty string,
    [get_related_entities] raises nothing of its own: it drops the related
    entity type together with the accession segment and behaves exactly as
    [get_entity] without accession does, one GET to the bare path
    [entity_type] with the given limit and offset still in the params. *)
Theorem related_without_accession (et rel : string) (acc : option string)
    (l o : option Z) (w : World) :
  acc = None \/ acc = Some "" ->
  related et rel acc l o w = entity et None l o w
  /\ exists d,
       sent (snd (related et rel acc l o w))
       = (sent w
          ++ [mkRequest (base_url (self w) ++ "/" ++ et)%string (Some d)])%list
       /\ Dict.get d "limit" = l
       /\ Dict.get d "offset" = o.
Proof.
  intros H. apply falsy_cases in H.
  unfold get_related_entities, get_entity. rewrite H. simpl.
  split; [reflexivity|].
  rewrite _get_world. simpl. unfold request_for.
  eexists. split; [reflexivity|]. apply pagination_dict.
Qed.

(** ** Pagination parameters *)

(** C2: for every call of either method, the one request it issues carries
    a params dict in which, when limit and offset are both given, both
    keys are present with exactly the caller's values, and from which a
    key whose argument is [None] is missing altogether. *)
Theorem pagination_params (c : Call) (w : World) :
  exists u d,
    sent (snd (run c w)) = (sent w ++ [mkRequest u (Some d)])%list
    /\ (forall l o, limit_of c = Some l -> offset_of c = Some o ->
          In ("limit", l) d /\ In ("offset", o) d
          /\ (forall v, In ("limit", v) d -> v = l)
          /\ (forall v, In ("offset", v) d -> v = o))
    /\ (limit_of c = None -> ~ In "limit" (Dict.keys d))
    /\ (offset_of c = None -> ~ In "offset" (Dict.keys d)).
Proof.
  destruct c as [e a l o | e r a l o]; simpl; one_request;
    unfold request_for; (eexists; eexists; split; [reflexivity|]);
    (split; [|split]).
  all: try (intros l' o' -> ->; simpl; repeat split; auto;
            intros v [H|[H|[]]]; congruence).
  all: intros ->; try destruct l; try destruct o; simpl;
    intuition discriminate.
Qed.

(** C5: zero is not absent.  For every call of either method, a limit
    (resp. offset) of 0 is sent as the parameter [limit] (resp. [offset])
    with value 0, rendered [limit=0] in the query string, while [None]
    leaves the key out of the params.  Only [None] means absent: every
    given value, zero or negative or positive, is sent as it is, and the
    key is missing from the params only when the argument is [None]. *)
Theorem zero_is_not_absent (c : Call) (w : World) :
  exists u d,
    sent (snd (run c w)) = (sent w ++ [mkRequest u (Some d)])%list
    /\ (limit_of c = Some 0 ->
          Dict.get d "limit" = Some 0 /\ In "limit=0" (map encode_item d))
    /\ (limit_of c = None ->
          Dict.get d "limit" = None /\ ~ In "limit" (Dict.keys d))
    /\ (offset_of c = Some 0 ->
          Dict.get d "offset" = Some 0 /\ In "offset=0" (map encode_item d))
    /\ (offset_of c = None ->
          Dict.get d "offset" = None /\ ~ In "offset" (Dict.keys d))
    /\ (forall v, limit_of c = Some v ->
          Dict.get d "limit" = Some v
          /\ In ("limit=" ++ str_of_int v)%string (map encode_item d))
    /\ (forall v, offset_of c = Some v ->
          Dict.get d "offset" = Some v
          /\ In ("offset=" ++ str_of_int v)%string (map encode_item d))
    /\ (~ In "limit" (Dict.keys d) -> limit_of c = None)
    /\ (~ In "offset" (Dict.keys d) -> offset_of c = None).
Proof.
  destruct (run_call_get c) as (endpoint & d & Hrun & Hl & Ho).
  exists (base_url (self w) ++ "/" ++ endpoint)%string, d.
  rewrite Hrun, _get_world. simpl. split; [reflexivity|].
  rewrite <- Hl, <- Ho.
  split; [|split; [|split; [|split; [|split; [|split; [|split]]]]]].
  - intros H. split; [exact H|].
    apply dict_get_In in H. now apply (in_map encode_item) in H.
  - intros H. split; [exact H|]. now apply dict_get_None_keys.
  - intros H. split; [exact H|].
    apply dict_get_In in H. now apply (in_map encode_item) in H.
  - intros H. split; [exact H|]. now apply dict_get_None_keys.
  - intros v H. split; [exact H|].
    apply dict_get_In in H. now apply (in_map encode_item) in H.
  - intros v H. split; [exact H|].
    apply dict_get_In in H. now apply (in_map encode_item) in H.
  - intros H. destruct (Dict.get d "limit") as [v|] eqn:E; [|reflexivity].
    apply dict_get_keys in E. contradiction.
  - intros H. destruct (Dict.get d "offset") as [v|] eqn:E; [|reflexivity].
    apply dict_get_keys in E. contradiction.
Qed.

(** ** The two examples of the specification *)



(** ** Errors and effects *)

(** C6 (as amended): for every call of either method, with [r] the one
    request it issues: if the connection fails, or the response status is
    a client or server error (400 <= status < 600), the call raises a
    RequestError and returns nothing; for every other status, if the body
    is not valid JSON the call raises a DecodeError, and otherwise it
    returns the decoded body.  No failure is recovered from. *)
Theorem call_outcome (c : Call) (w : World) :
  exists r,
    sent (snd (run c w)) = (sent w ++ [r])%list
    /\ (network (sent w) r = ConnectionFailed ->
          exists e, fst (run c w) = Raise e /\ kind_of e = RequestError)
    /\ (forall resp, network (sent w) r = Responded resp ->
          400 <= status_code resp < 600 ->
          exists e, fst (run c w) = Raise e /\ kind_of e = RequestError)
    /\ (forall resp, network (sent w) r = Responded resp ->
          ~ 400 <= status_code resp < 600 ->
          json_loads (text resp) = None ->
          exists e, fst (run c w) = Raise e /\ kind_of e = DecodeError)
    /\ (forall resp v, network (sent w) r = Responded resp ->
          ~ 400 <= status_code resp < 600 ->
          json_loads (text resp) = Some v ->
          fst (run c w) = Return v).
Proof.
  destruct (run_call_get c) as (endpoint & d & Hrun & _).
  exists (request_for w endpoint (Some d)).
  rewrite Hrun, _get_world. simpl.
  split; [reflexivity|]. split; [|split; [|split]].
  - intros H. exists ConnectionError.
    split; [now apply _get_offline | reflexivity].
  - intros resp H Hst. exists (HTTPError (status_code resp)).
    split; [now apply _get_error_status | reflexivity].
  - intros resp H Hst Hjs. exists JSONDecodeError.
    split; [|reflexivity].
    rewrite (_get_decoded _ _ _ resp H Hst). now rewrite Hjs.
  - intros resp v H Hst Hjs.
    rewrite (_get_decoded _ _ _ resp H Hst). now rewrite Hjs.
Qed.

(** C9 (as amended): for every client and every call of either method,
    whether it returns or raises, the client object, and with it its base
    URL, is the same after the call as before, and the call makes exactly
    one call of [requests.get].  How many HTTP requests that one call puts
    on the wire is the library's affair. *)
Theorem call_frame (c : Call) (w : World) :
  self (snd (run c w)) = self w
  /\ base_url (self (snd (run c w))) = base_url (self w)
  /\ length (sent (snd (run c w))) = S (length (sent w))
  /\ exists r, sent (snd (run c w)) = (sent w ++ [r])%list.
Proof.
  destruct (run_call_get c) as (endpoint & d & Hrun & _).
  rewrite Hrun, _get_world. simpl.
  repeat split; auto.
  - rewrite length_app. simpl. apply Nat.add_1_r.
  - eexists. reflexivity.
Qed.

End ClientFacts.

(** ** Closed instances *)

(** The claim C1 as first stated, for every accession id, fails at the
    empty accession id: the GET goes to [studies], where the stated path
    [entity_type/accession_id/related_entity_type] would be
    [studies//datasets]. *)
Lemma related_entities_path_empty_accession :
  let issued :=
    map url (sent (snd (get_related_entities Sample.value Sample.loads
                          Sample.ok_server "studies" "datasets" (Some "")
                          None None Sample.fresh))) in
  issued = ["https://metadata.ega-archive.org/studies"%string]
  /\ issued
     <> [("https://metadata.ega-archive.org" ++ "/" ++ "studies" ++ "/" ++ ""
          ++ "/" ++ "datasets")%string].
Proof.
  split; [reflexivity | discriminate].
Qed.

Lemma related_entities_path_witness :
  "EGAS50000000209"%string <> ""%string
  /\ map url (sent (snd (get_related_entities Sample.value Sample.loads
                           Sample.ok_server "studies" "datasets"
                           (Some "EGAS50000000209") (Some 10) None
                           Sample.fresh)))
     = ["https://metadata.ega-archive.org/studies/EGAS50000000209/datasets"
        %string].
Proof.
  split; [discriminate|].
  apply (related_entities_path Sample.value Sample.loads Sample.ok_server
           "studies" "datasets" "EGAS50000000209" (Some 10) None
           Sample.fresh).
  discriminate.
Defined.

Lemma entity_path_with_accession_witness :
  "EGAS50000000209"%string <> ""%string
  /\ map url (sent (snd (get_entity Sample.value Sample.loads Sample.ok_server
                           "studies" (Some "EGAS50000000209") None None
                           Sample.fresh)))
     = ["https://metadata.ega-archive.org/studies/EGAS50000000209"%string].
Proof.
  split; [discriminate|].
  apply (entity_path_with_accession Sample.value Sample.loads Sample.ok_server
           "studies" "EGAS50000000209" None None Sample.fresh).
  discriminate.
Defined.

Lemma entity_path_without_accession_witness :
  map url (sent (snd (get_entity Sample.value Sample.loads Sample.ok_server
                        "studies" None (Some 5) None Sample.fresh)))
  = ["https://metadata.ega-archive.org/studies"%string]
  /\ map url (sent (snd (get_entity Sample.value Sample.loads Sample.ok_server
                           "studies" (Some "") (Some 5) None Sample.fresh)))
     = ["https://metadata.ega-archive.org/studies"%string].
Proof.
  split.
  - apply (entity_path_without_accession Sample.value Sample.loads
             Sample.ok_server "studies" None (Some 5) None Sample.fresh).
    left. reflexivity.
  - apply (entity_path_without_accession Sample.value Sample.loads
             Sample.ok_server "studies" (Some "") (Some 5) None Sample.fresh).
    right. reflexivity.
Defined.

Lemma related_without_accession_witness :
  get_related_entities Sample.value Sample.loads Sample.ok_server
    "studies" "datasets" (Some "") (Some 5) (Some 0) Sample.fresh
  = get_entity Sample.value Sample.loads Sample.ok_server
      "studies" None (Some 5) (Some 0) Sample.fresh
  /\ get_related_entities Sample.value Sample.loads Sample.ok_server
       "studies" "datasets" None (Some 5) (Some 0) Sample.fresh
     = get_entity Sample.value Sample.loads Sample.ok_server
         "studies" None (Some 5) (Some 0) Sample.fresh.
Proof.
  split.
  - apply (related_without_accession Sample.value Sample.loads Sample.ok_server
             "studies" "datasets" (Some "") (Some 5) (Some 0) Sample.fresh).
    right. reflexivity.
  - apply (related_without_accession Sample.value Sample.loads Sample.ok_server
             "studies" "datasets" None (Some 5) (Some 0) Sample.fresh).
    left. reflexivity.
Defined.

Lemma pagination_params_witness :
  (exists u d,
     sent (snd (run_call Sample.value Sample.loads Sample.ok_server
                  (GetRelatedEntities "datasets" "samples"
                     (Some "EGAD50000000298") (Some 10) (Some 2))
                  Sample.fresh))
     = [mkRequest u (Some d)]
     /\ In ("limit"%string, 10) d /\ In ("offset"%string, 2) d)
  /\ (exists u d,
        sent (snd (run_call Sample.value Sample.loads Sample.ok_server
                     (GetEntity "studies" None None None) Sample.fresh))
        = [mkRequest u (Some d)]
        /\ ~ In "limit"%string (Dict.keys d)
        /\ ~ In "offset"%string (Dict.keys d)).
Proof.
  split.
  - destruct (pagination_params Sample.value Sample.loads Sample.ok_server
                (GetRelatedEntities "datasets" "samples"
                   (Some "EGAD50000000298") (Some 10) (Some 2))
                Sample.fresh)
      as (u & d & Hs & Hboth & _ & _).
    exists u, d. split; [exact Hs|].
    destruct (Hboth 10 2 eq_refl eq_refl) as (Hl & Ho & _).
    split; assumption.
  - destruct (pagination_params Sample.value Sample.loads Sample.ok_server
                (GetEntity "studies" None None None) Sample.fresh)
      as (u & d & Hs & _ & Hl & Ho).
    exists u, d. split; [exact Hs|].
    split; [apply Hl | apply Ho]; reflexivity.
Defined.

Lemma zero_is_not_absent_witness :
  (exists u d,
     sent (snd (run_call Sample.value Sample.loads Sample.ok_server
                  (GetEntity "studies" None (Some 0) None) Sample.fresh))
     = [mkRequest u (Some d)]
     /\ Dict.get d "limit" = Some 0
     /\ Dict.get d "offset" = None)
  /\ (exists u d,
        sent (snd (run_call Sample.value Sample.loads Sample.ok_server
                     (GetRelatedEntities "studies" "datasets"
                        (Some "EGAS50000000209") None (Some 0))
                     Sample.fresh))
        = [mkRequest u (Some d)]
        /\ Dict.get d "limit" = None
        /\ Dict.get d "offset" = Some 0)
  /\ (exists u d,
        sent (snd (run_call Sample.value Sample.loads Sample.ok_server
                     (GetEntity "studies" None (Some (-1)) (Some 7))
                     Sample.fresh))
        = [mkRequest u (Some d)]
        /\ Dict.get d "limit" = Some (-1)
        /\ In "limit=-1"%string (map encode_item d)
        /\ Dict.get d "offset" = Some 7).
Proof.
  split; [|split].
  - destruct (zero_is_not_absent Sample.value Sample.loads Sample.ok_server
                (GetEntity "studies" None (Some 0) None) Sample.fresh)
      as (u & d & Hs & Hl0 & _ & _ & Ho & _).
    exists u, d. split; [exact Hs|].
    split; [apply Hl0 | apply Ho]; reflexivity.
  - destruct (zero_is_not_absent Sample.value Sample.loads Sample.ok_server
                (GetRelatedEntities "studies" "datasets"
                   (Some "EGAS50000000209") None (Some 0))
                Sample.fresh)
      as (u & d & Hs & _ & Hl & Ho0 & _).
    exists u, d. split; [exact Hs|].
    split; [apply Hl | apply Ho0]; reflexivity.
  - destruct (zero_is_not_absent Sample.value Sample.loads Sample.ok_server
                (GetEntity "studies" None (Some (-1)) (Some 7))
                Sample.fresh)
      as (u & d & Hs & _ & _ & _ & _ & Hl & Ho & _).
    exists u, d. split; [exact Hs|].
    destruct (Hl (-1) eq_refl) as [Hget Hin].
    destruct (Ho 7 eq_refl) as [Hget' _].
    repeat split; assumption.
Defined.

(** The claim C6 as first stated, RequestError for every status outside
    2xx, fails at status 300: [raise_for_status] lets it pass and the call
    returns the decoded body. *)
Lemma multiple_choices_is_returned :
  is_success_status 300 = false
  /\ fst (get_entity Sample.value Sample.loads (Sample.answering 300 "[]")
            "studies" None None None Sample.fresh)
     = Return Sample.EmptyArray
  /\ fst (get_related_entities Sample.value Sample.loads
            (Sample.answering 300 "[]") "studies" "datasets"
            (Some "EGAS50000000209") None None Sample.fresh)
     = Return Sample.EmptyArray.
Proof.
  split; [reflexivity|]. split; reflexivity.
Qed.

Lemma call_outcome_witness :
  let c := GetEntity "studies" (Some "EGAS50000000209") None None in
  (exists e,
     fst (run_call Sample.value Sample.loads Sample.offline c Sample.fresh)
     = Raise e /\ kind_of e = RequestError)
  /\ (exists e,
        fst (run_call Sample.value Sample.loads (Sample.answering 404 "")
               c Sample.fresh)
        = Raise e /\ kind_of e = RequestError)
  /\ (exists e,
        fst (run_call Sample.value Sample.loads
               (Sample.answering 200 "<html>") c Sample.fresh)
        = Raise e /\ kind_of e = DecodeError)
  /\ fst (run_call Sample.value Sample.loads (Sample.answering 200 "{}")
            c Sample.fresh)
     = Return Sample.EmptyObject.
Proof.
  intros c. split; [|split; [|split]].
  - destruct (call_outcome Sample.value Sample.loads Sample.offline c
                Sample.fresh) as (r & _ & Hoff & _).
    apply Hoff. reflexivity.
  - destruct (call_outcome Sample.value Sample.loads
                (Sample.answering 404 "") c Sample.fresh)
      as (r & _ & _ & Herr & _).
    apply (Herr (mkResponse 404 "")); [reflexivity | simpl; lia].
  - destruct (call_outcome Sample.value Sample.loads
                (Sample.answering 200 "<html>") c Sample.fresh)
      as (r & _ & _ & _ & Hdec & _).
    apply (Hdec (mkResponse 200 "<html>"));
      [reflexivity | simpl; lia | reflexivity].
  - destruct (call_outcome Sample.value Sample.loads
                (Sample.answering 200 "{}") c Sample.fresh)
      as (r & _ & _ & _ & _ & Hret).
    apply (Hret (mkResponse 200 "{}") Sample.EmptyObject);
      [reflexivity | simpl; lia | reflexivity].
Defined.

(** The claim C9 as first stated, exactly one outbound HTTP request for
    every call, fails on the wire.  When the server redirects, one call
    of [get_entity] makes one call of [requests.get] and that call sends
    two GETs; when the base URL has no scheme, the call raises and
    nothing is sent at all. *)
Lemma one_call_is_not_one_request :
  let net := via_wire Sample.http_url Sample.redirecting in
  let wire := on_wire Sample.http_url Sample.redirecting in
  let moved :=
    get_entity Sample.value Sample.loads net "studies" None None None
      Sample.fresh in
  let no_scheme :=
    get_entity Sample.value Sample.loads net "studies" None None None
      (mkWorld (__init__ (Some "metadata.ega-archive.org"%string)) []) in
  fst moved = Return Sample.EmptyArray
  /\ sent (snd moved)
     = [mkRequest "https://metadata.ega-archive.org/studies" (Some [])]
  /\ wire (sent (snd moved))
     = [mkRequest "https://metadata.ega-archive.org/studies" (Some []);
        mkRequest "https://metadata.ega-archive.org/studies/" None]
  /\ length (wire (sent (snd moved))) <> 1%nat
  /\ fst no_scheme = Raise ConnectionError
  /\ sent (snd no_scheme)
     = [mkRequest "metadata.ega-archive.org/studies" (Some [])]
  /\ wire (sent (snd no_scheme)) = []
  /\ length (wire (sent (snd no_scheme))) <> 1%nat.
Proof.
  repeat split; try reflexivity; discriminate.
Qed.

(** ** Further laws of the client *)


Section ClientLaws.

Variable JSON : Type.
Variable json_loads : string -> option JSON.
Variable network : list Request -> Request -> Outcome.

Local Abbreviation get := (_get JSON json_loads network).
Local Abbreviation entity := (get_entity JSON json_loads network).
Local Abbreviation related := (get_related_entities JSON json_loads network).
Local Abbreviation run := (run_call JSON json_loads network).

(** What [_get] gives back, read off the answer of the network: the three
    steps fail in the order they are written. *)
Lemma _get_result (endpoint : string) (p : option Dict.t) (w : World) :
  fst (get endpoint p w)
  = match network (sent w) (request_for w endpoint p) with
    | ConnectionFailed => Raise ConnectionError
    | Responded resp =>
        if is_error_status (status_code resp)
        then Raise (HTTPError (status_code resp))
        else match json_loads (text resp) with
             | Some v => Return v
             | None => Raise JSONDecodeError
             end
    end.
Proof.
  unfold _get, bind, get_base_url, requests_get, raise_for_status, json,
    ret, raise, request_for. simpl.
  destruct (network _ _) as [|resp]; simpl; auto.
  destruct (is_error_status _); simpl; auto.
  destruct (json_loads _); auto.
Qed.

(** Every call is one [_get] on a request that is fixed by the base URL
    and the arguments. *)
Lemma run_call_request (c : Call) (w : World) :
  exists endpoint d,
    run c w = get endpoint (Some d) w
    /\ snd (run c w)
       = mkWorld (self w) (sent w ++ [request_for w endpoint (Some d)]).
Proof.
  destruct (run_call_get JSON json_loads network c)
    as (endpoint & d & Hrun & _).
  exists endpoint, d. rewrite Hrun. split; [reflexivity|].
  apply _get_world.
Qed.

Lemma not_error_status (c : Z) :
  is_error_status c = false -> ~ 400 <= c < 600.
Proof.
  intros H Hc. apply is_error_status_spec in Hc. congruence.
Qed.

(** X1: the params dict every call hands to [requests.get] holds the key
    [limit] when a limit is given, then the key [offset] when an offset is
    given, and nothing else: the client puts no other key into it and no
    key twice.  Query text that is part of the entity type or accession
    string travels in the url argument, outside this dict. *)
Theorem params_keys (c : Call) (w : World) :
  exists u d,
    sent (snd (run c w)) = (sent w ++ [mkRequest u (Some d)])%list
    /\ Dict.keys d
       = (match limit_of c with Some _ => ["limit"%string] | None => [] end
          ++ match offset_of c with Some _ => ["offset"%string] | None => [] end
         )%list
    /\ NoDup (Dict.keys d).
Proof.
  destruct c as [e a l o | e r a l o]; simpl;
    unfold get_entity, get_related_entities; rewrite _get_world;
    unfold request_for; simpl;
    (eexists; eexists; split; [reflexivity|]);
    destruct l, o; simpl; (split; [reflexivity|]);
    repeat constructor; simpl; intuition discriminate.
Qed.

(** X2: the query string of every call is [limit=<l>&offset=<o>] when both
    are given, [limit=<l>] or [offset=<o>] when one is, and empty when
    neither is; the limit always comes first. *)
Theorem query_string_of_call (c : Call) (w : World) :
  map query_string (sent (snd (run c w)))
  = (map query_string (sent w)
     ++ [match limit_of c, offset_of c with
         | Some l, Some o =>
             ("limit=" ++ str_of_int l ++ "&offset=" ++ str_of_int o)%string
         | Some l, None => ("limit=" ++ str_of_int l)%string
         | None, Some o => ("offset=" ++ str_of_int o)%string
         | None, None => ""%string
         end])%list.
Proof.
  destruct c as [e a l o | e r a l o]; simpl;
    unfold get_entity, get_related_entities; rewrite _get_world; simpl;
    rewrite map_app; simpl; f_equal; f_equal;
    destruct l, o; unfold query_string, encode_item; reflexivity.
Qed.

(** X3: with a non-empty accession id, [get_related_entities] is
    [get_entity] on the accession id [accession_id/related_entity_type]:
    the same request, the same result, the same state afterwards.  The
    client escapes no slash, so the two calls cannot be told apart. *)
Theorem related_as_entity (et rel acc : string) (l o : option Z) :
  acc <> ""%string ->
  get_related_entities JSON json_loads network et rel (Some acc) l o
  = get_entity JSON json_loads network et
      (Some (acc ++ "/" ++ rel)%string) l o.
Proof.
  intros H. unfold get_related_entities, get_entity.
  rewrite (truthy_nonempty acc H).
  rewrite (truthy_nonempty (acc ++ "/" ++ rel)%string).
  - reflexivity.
  - destruct acc; [contradiction | discriminate].
Qed.

(** ** What a result tells the caller *)



(** X6: a call raises [JSONDecodeError] only if the server answered with
    a status outside 400..599 and a body the decoder rejects; the body of
    an error answer is never decoded. *)
Theorem decode_error_is_bad_body (c : Call) (w : World) :
  fst (run c w) = Raise JSONDecodeError ->
  exists r resp,
    sent (snd (run c w)) = (sent w ++ [r])%list
    /\ network (sent w) r = Responded resp
    /\ ~ 400 <= status_code resp < 600
    /\ json_loads (text resp) = None.
Proof.
  destruct (run_call_request c w) as (endpoint & d & Hrun & Hw).
  rewrite Hw, Hrun, _get_result. simpl. intros H.
  exists (request_for w endpoint (Some d)).
  destruct (network _ _) as [|resp]; [discriminate|].
  exists resp.
  destruct (is_error_status (status_code resp)) eqn:E; [discriminate|].
  destruct (json_loads (text resp)) as [v'|]; [discriminate|].
  repeat split; auto using not_error_status.
Qed.

(** X7: a call raises [ConnectionError] only if [requests.get] came back
    without a response. *)
Theorem connection_error_is_no_response (c : Call) (w : World) :
  fst (run c w) = Raise ConnectionError ->
  exists r,
    sent (snd (run c w)) = (sent w ++ [r])%list
    /\ network (sent w) r = ConnectionFailed.
Proof.
  destruct (run_call_request c w) as (endpoint & d & Hrun & Hw).
  rewrite Hw, Hrun, _get_result. simpl. intros H.
  exists (request_for w endpoint (Some d)).
  destruct (network _ _) as [|resp]; [auto|].
  destruct (is_error_status (status_code resp)); [discriminate|].
  destruct (json_loads (text resp)); discriminate.
Qed.

(** ** What a request depends on *)

(** X8: the params of a call depend on its limit and offset only: two
    calls with the same limit and offset, of either method, on any
    entities and clients, send the same params. *)
Theorem same_pagination_same_params (c c' : Call) (w w' : World) :
  limit_of c = limit_of c' ->
  offset_of c = offset_of c' ->
  exists u u' d,
    sent (snd (run c w)) = (sent w ++ [mkRequest u (Some d)])%list
    /\ sent (snd (run c' w')) = (sent w' ++ [mkRequest u' (Some d)])%list.
Proof.
  destruct c as [e a l o | e r a l o], c' as [e' a' l' o' | e' r' a' l' o'];
    simpl; intros <- <-;
    unfold get_entity, get_related_entities; rewrite !_get_world;
    unfold request_for; simpl;
    eexists; eexists; eexists; split; reflexivity.
Qed.

(** X9: the url argument a call hands to [requests.get] does not depend
    on limit and offset; they travel in the params argument only. *)
Theorem url_ignores_pagination (et rel : string) (acc : option string)
    (l o l' o' : option Z) (w : World) :
  map url (sent (snd (entity et acc l o w)))
  = map url (sent (snd (entity et acc l' o' w)))
  /\ map url (sent (snd (related et rel acc l o w)))
     = map url (sent (snd (related et rel acc l' o' w))).
Proof.
  unfold get_entity, get_related_entities. rewrite !_get_world. simpl.
  rewrite !map_app. split; reflexivity.
Qed.



(** X12: calls do not influence each other.  Two calls made one after
    the other on the same client make exactly two calls of [requests.get],
    in the order of the calls, and the second hands over the url and
    params it would have handed over had the first call not been made;
    the client is still as it was. *)
Theorem two_calls (c1 c2 : Call) (w : World) :
  let w1 := snd (run c1 w) in
  exists r1 r2,
    sent w1 = (sent w ++ [r1])%list
    /\ sent (snd (run c2 w)) = (sent w ++ [r2])%list
    /\ sent (snd (run c2 w1)) = (sent w ++ [r1; r2])%list
    /\ self (snd (run c2 w1)) = self w.
Proof.
  destruct (run_call_get JSON json_loads network c1)
    as (e1 & d1 & Hrun1 & _).
  destruct (run_call_get JSON json_loads network c2)
    as (e2 & d2 & Hrun2 & _).
  simpl. rewrite Hrun1, Hrun2, !_get_world. simpl.
  exists (request_for w e1 (Some d1)), (request_for w e2 (Some d2)).
  repeat split. rewrite <- app_assoc. reflexivity.
Qed.

End ClientLaws.


(** ** Closed instances of the further laws *)

Lemma related_as_entity_witness :
  "EGAD50000000298"%string <> ""%string
  /\ get_related_entities Sample.value Sample.loads Sample.ok_server
       "datasets" "samples" (Some "EGAD50000000298") (Some 10) None
     = get_entity Sample.value Sample.loads Sample.ok_server
         "datasets" (Some "EGAD50000000298/samples") (Some 10) None.
Proof.
  split; [discriminate|].
  apply (related_as_entity Sample.value Sample.loads Sample.ok_server
           "datasets" "samples" "EGAD50000000298" (Some 10) None).
  discriminate.
Defined.



Lemma decode_error_is_bad_body_witness :
  exists r resp,
    sent (snd (run_call Sample.value Sample.loads
                 (Sample.answering 200 "<html>")
                 (GetRelatedEntities "studies" "datasets"
                    (Some "EGAS50000000209") None None)
                 Sample.fresh))
    = [r]
    /\ Sample.answering 200 "<html>" [] r = Responded resp
    /\ ~ 400 <= status_code resp < 600
    /\ Sample.loads (text resp) = None.
Proof.
  apply (decode_error_is_bad_body Sample.value Sample.loads
           (Sample.answering 200 "<html>")
           (GetRelatedEntities "studies" "datasets"
              (Some "EGAS50000000209") None None)
           Sample.fresh).
  reflexivity.
Defined.

Lemma connection_error_is_no_response_witness :
  exists r,
    sent (snd (run_call Sample.value Sample.loads Sample.offline
                 (GetEntity "studies" None (Some 5) None) Sample.fresh))
    = [r]
    /\ Sample.offline [] r = ConnectionFailed.
Proof.
  apply (connection_error_is_no_response Sample.value Sample.loads
           Sample.offline (GetEntity "studies" None (Some 5) None)
           Sample.fresh).
  reflexivity.
Defined.

Lemma same_pagination_same_params_witness :
  exists u u' d,
    sent (snd (run_call Sample.value Sample.loads Sample.ok_server
                 (GetEntity "studies" None (Some 10) (Some 2))
                 Sample.fresh))
    = [mkRequest u (Some d)]
    /\ sent (snd (run_call Sample.value Sample.loads Sample.ok_server
                    (GetRelatedEntities "datasets" "samples"
                       (Some "EGAD50000000298") (Some 10) (Some 2))
                    Sample.fresh))
       = [mkRequest u' (Some d)].
Proof.
  apply (same_pagination_same_params Sample.value Sample.loads
           Sample.ok_server
           (GetEntity "studies" None (Some 10) (Some 2))
           (GetRelatedEntities "datasets" "samples"
              (Some "EGAD50000000298") (Some 10) (Some 2))
           Sample.fresh Sample.fresh); reflexivity.
Defined.



(** ** Calls on the wire *)

Section WireFacts.

Variable JSON : Type.
Variable json_loads : string -> option JSON.
Variable usable : string -> bool.
Variable server : Request -> WireAnswer.





End WireFacts.

